(** * Duplex audio bridge between a telephony media stream and a realtime
      voice-AI service: a shallow embedding of [src/index.js]

    The file embeds the per-connection state of the [wss.on("connection")]
    closure and the two message handlers that mutate it,
    [openAiWs.on("message")] and [ws.on("message")], together with the helpers
    they call ([sendMark], [handleSpeechStartedEvent]).

    JavaScript is dynamically typed, so the handlers are modelled on the
    values [JSON.parse] can return; truthiness, loose comparison with [null],
    strict comparison with a string literal and member access (which throws
    on [null] and [undefined]) are written out.  Console output is not part
    of the model. *)

From Stdlib Require Import ZArith String List Bool Lia.
Import ListNotations.
Open Scope string_scope.
Open Scope Z_scope.

(** ** JavaScript values *)

(** The values a variable of the closure can hold: what [JSON.parse] builds,
    plus [undefined] (the value of a missing member).  Numbers are the
    integer-valued ones, on which the arithmetic of doubles is exact below
    2^53.  An object is its list of own properties; a key bound twice is
    read at its first binding. *)
#[local] Set Warnings "-register-all".
Inductive jsval : Type :=
| JUndefined
| JNull
| JBool (b : bool)
| JNum (n : Z)
| JStr (s : string)
| JArr (items : list jsval)
| JObj (props : list (string * jsval)).

(** [if (v)]: ToBoolean. *)
Definition truthy (v : jsval) : bool :=
  match v with
  | JUndefined | JNull => false
  | JBool b => b
  | JNum n => negb (n =? 0)
  | JStr s => negb (s =? "")%string
  | JArr _ | JObj _ => true
  end.

(** [v == null]: true of [null] and of [undefined] only. *)
Definition loose_eq_null (v : jsval) : bool :=
  match v with
  | JUndefined | JNull => true
  | _ => false
  end.

(** [v === "lit"]. *)
Definition strict_eq_str (v : jsval) (lit : string) : bool :=
  match v with
  | JStr s => (s =? lit)%string
  | _ => false
  end.

Fixpoint own_property (k : string) (props : list (string * jsval)) : jsval :=
  match props with
  | [] => JUndefined
  | (k', v) :: rest => if (k =? k')%string then v else own_property k rest
  end.

(** [v.k] for the keys the handlers read ([type], [delta], [item_id],
    [event], [media], [timestamp], [payload], [start], [streamSid]), none of
    which names a member of a built-in prototype: [None] is the TypeError
    raised on [null] and [undefined]. *)
Definition member (v : jsval) (k : string) : option jsval :=
  match v with
  | JUndefined | JNull => None
  | JObj props => Some (own_property k props)
  | JBool _ | JNum _ | JStr _ | JArr _ => Some JUndefined
  end.

(** The result of [a - b].  On two numbers it is their difference.  On any
    other operands it is what ToNumber makes of them (a numeric string is
    parsed, [null] counts as 0, [undefined] gives NaN, ...): the model keeps
    the operands and does not interpret them. *)
Inductive number : Type :=
| Num (n : Z)
| Coerced_difference (a b : jsval).

Definition js_sub (a b : jsval) : number :=
  match a, b with
  | JNum x, JNum y => Num (x - y)
  | _, _ => Coerced_difference a b
  end.

(** ** The two sockets *)

(** [WebSocket.readyState] of the AI link, read by the telephony handler. *)
Inductive readyState : Type := CONNECTING | OPEN | CLOSING | CLOSED.

Definition readyState_eqb (a b : readyState) : bool :=
  match a, b with
  | CONNECTING, CONNECTING | OPEN, OPEN | CLOSING, CLOSING | CLOSED, CLOSED => true
  | _, _ => false
  end.

(** Objects passed to [ws.send] (telephony link), one constructor per
    object literal of the source, fields in the order of the literal. *)
Inductive telephony_event : Type :=
| Media (streamSid : jsval) (payload : string)
| Mark (streamSid : jsval) (name : string)
| Clear (streamSid : jsval).

(** Objects passed to [openAiWs.send] (AI link) by the two handlers. *)
Inductive ai_event : Type :=
| Input_audio_buffer_append (audio : jsval)
| Conversation_item_truncate (item_id : jsval) (content_index : Z)
                             (audio_end_ms : number).

Inductive sent : Type :=
| ToTelephony (e : telephony_event)
| ToAi (e : ai_event).

(** ** Connection-specific state *)

Record session : Type := Session {
  streamSid : jsval;
  latestMediaTimestamp : jsval;
  lastAssistantItem : jsval;
  markQueue : list string;
  responseStartTimestampTwilio : jsval
}.

(** The [let] declarations at the top of the connection handler. *)
Definition new_session : session :=
  {| streamSid := JNull;
     latestMediaTimestamp := JNum 0;
     lastAssistantItem := JNull;
     markQueue := [];
     responseStartTimestampTwilio := JNull |}.

Definition set_streamSid (v : jsval) (s : session) : session :=
  {| streamSid := v;
     latestMediaTimestamp := latestMediaTimestamp s;
     lastAssistantItem := lastAssistantItem s;
     markQueue := markQueue s;
     responseStartTimestampTwilio := responseStartTimestampTwilio s |}.

Definition set_latestMediaTimestamp (v : jsval) (s : session) : session :=
  {| streamSid := streamSid s;
     latestMediaTimestamp := v;
     lastAssistantItem := lastAssistantItem s;
     markQueue := markQueue s;
     responseStartTimestampTwilio := responseStartTimestampTwilio s |}.

Definition set_lastAssistantItem (v : jsval) (s : session) : session :=
  {| streamSid := streamSid s;
     latestMediaTimestamp := latestMediaTimestamp s;
     lastAssistantItem := v;
     markQueue := markQueue s;
     responseStartTimestampTwilio := responseStartTimestampTwilio s |}.

Definition set_markQueue (q : list string) (s : session) : session :=
  {| streamSid := streamSid s;
     latestMediaTimestamp := latestMediaTimestamp s;
     lastAssistantItem := lastAssistantItem s;
     markQueue := q;
     responseStartTimestampTwilio := responseStartTimestampTwilio s |}.

Definition set_responseStartTimestampTwilio (v : jsval) (s : session) : session :=
  {| streamSid := streamSid s;
     latestMediaTimestamp := latestMediaTimestamp s;
     lastAssistantItem := lastAssistantItem s;
     markQueue := markQueue s;
     responseStartTimestampTwilio := v |}.

(** ** A monad for handler bodies

    A statement reads and writes the closure variables, sends messages and
    may throw.  A throw keeps the state reached and the messages already
    sent, as in JavaScript: nothing is rolled back. *)

Inductive completion (A : Type) : Type :=
| Normal (a : A)
| Thrown.
Arguments Normal {A} a.
Arguments Thrown {A}.

Definition M (A : Type) : Type := session -> completion A * session * list sent.

Definition ret {A : Type} (a : A) : M A := fun s => (Normal a, s, []).

Definition bind {A B : Type} (m : M A) (k : A -> M B) : M B :=
  fun s =>
    match m s with
    | (Normal a, s1, out1) =>
        match k a s1 with
        | (r, s2, out2) => (r, s2, (out1 ++ out2)%list)
        end
    | (Thrown, s1, out1) => (Thrown, s1, out1)
    end.

Declare Scope js_scope.
Delimit Scope js_scope with js.
Notation "x <- m ;; k" := (bind m (fun x => k))
  (at level 61, m at next level, right associativity) : js_scope.
Notation "m ;; k" := (bind m (fun _ => k))
  (at level 61, right associativity) : js_scope.
Open Scope js_scope.

Definition throw {A : Type} : M A := fun s => (Thrown, s, []).

Definition read {A : Type} (proj : session -> A) : M A :=
  fun s => (Normal (proj s), s, []).

Definition assign (upd : session -> session) : M unit :=
  fun s => (Normal tt, upd s, []).

Definition send (e : sent) : M unit := fun s => (Normal tt, s, [e]).

(** [v.k] as a statement. *)
Definition get (v : jsval) (k : string) : M jsval :=
  match member v k with
  | Some w => ret w
  | None => throw
  end.

(** [if (c) { body }] without [else]. *)
Definition when (c : bool) (body : M unit) : M unit :=
  if c then body else ret tt.

(** [try { body } catch (error) { console.error(...) }]. *)
Definition try_catch (body : M unit) : M unit :=
  fun s =>
    match body s with
    | (_, s1, out1) => (Normal tt, s1, out1)
    end.

(** [JSON.parse] applied to a raw frame: the frame is given by what it
    parses to, [None] for a frame that is not JSON (SyntaxError). *)
Definition JSON_parse (frame : option jsval) : M jsval :=
  match frame with
  | Some v => ret v
  | None => throw
  end.

(** State after and messages sent by a handler. *)
Definition state_after (m : M unit) (s : session) : session := snd (fst (m s)).
Definition sent_by (m : M unit) (s : session) : list sent := snd (m s).

(** ** Node's [Buffer]

    [Buffer.from(delta, "base64").toString("base64")] is computed by the
    runtime, not by the program.  The handlers take it as given: what it
    returns on a string (it never throws there), and what it does on an array
    or an object ([None] when [Buffer.from] throws). *)
Record runtime : Type := Runtime {
  base64_reencode : string -> string;
  base64_of_object : jsval -> option string
}.

(** A runtime to run examples with: canonical base64 text is re-encoded to
    itself, arrays and objects are refused. *)
Definition sample_runtime : runtime :=
  {| base64_reencode := fun s => s;
     base64_of_object := fun _ => None |}.

Section Bridge.

Variable rt : runtime.

(** [Buffer.from(delta, "base64").toString("base64")]; a number or a boolean
    is refused with ERR_INVALID_ARG_TYPE ([undefined] and [null] never get
    here). *)
Definition Buffer_from_base64_toString (delta : jsval) : M string :=
  match delta with
  | JStr s => ret (base64_reencode rt s)
  | JArr _ | JObj _ =>
      match base64_of_object rt delta with
      | Some p => ret p
      | None => throw
      end
  | JUndefined | JNull | JBool _ | JNum _ => throw
  end.

(** [handleSpeechStartedEvent], source lines 138-173. *)
Definition handleSpeechStartedEvent : M unit :=
  queue <- read markQueue ;;
  start <- read responseStartTimestampTwilio ;;
  when ((0 <? length queue)%nat && negb (loose_eq_null start))
    (latest <- read latestMediaTimestamp ;;
     let elapsedTime := js_sub latest start in
     item <- read lastAssistantItem ;;
     when (truthy item)
       (send (ToAi (Conversation_item_truncate item 0 elapsedTime))) ;;
     sid <- read streamSid ;;
     send (ToTelephony (Clear sid)) ;;
     assign (set_markQueue []) ;;
     assign (set_lastAssistantItem JNull) ;;
     assign (set_responseStartTimestampTwilio JNull)).

(** [sendMark(ws, streamSid)], source lines 176-186; the parameter shadows
    the closure variable of the same name. *)
Definition sendMark (sid : jsval) : M unit :=
  when (truthy sid)
    (send (ToTelephony (Mark sid "responsePart")) ;;
     queue <- read markQueue ;;
     assign (set_markQueue (queue ++ ["responsePart"])%list)).

(** [openAiWs.on("message", ...)], source lines 194-238. *)
Definition openAiWs_on_message (data : option jsval) : M unit :=
  try_catch
    (response <- JSON_parse data ;;
     type <- get response "type" ;;
     when (strict_eq_str type "response.audio.delta")
       (delta <- get response "delta" ;;
        when (truthy delta)
          (sid <- read streamSid ;;
           payload <- Buffer_from_base64_toString delta ;;
           send (ToTelephony (Media sid payload)) ;;
           start <- read responseStartTimestampTwilio ;;
           when (negb (truthy start))
             (latest <- read latestMediaTimestamp ;;
              assign (set_responseStartTimestampTwilio latest)) ;;
           item_id <- get response "item_id" ;;
           when (truthy item_id)
             (assign (set_lastAssistantItem item_id)) ;;
           sid' <- read streamSid ;;
           sendMark sid')) ;;
     type' <- get response "type" ;;
     when (strict_eq_str type' "input_audio_buffer.speech_started")
       handleSpeechStartedEvent).

(** [ws.on("message", ...)], source lines 241-278; [ai_state] is
    [openAiWs.readyState] when the frame arrives. *)
Definition ws_on_message (ai_state : readyState) (message : option jsval) : M unit :=
  try_catch
    (data <- JSON_parse message ;;
     event <- get data "event" ;;
     if strict_eq_str event "media" then
       media <- get data "media" ;;
       timestamp <- get media "timestamp" ;;
       assign (set_latestMediaTimestamp timestamp) ;;
       when (readyState_eqb ai_state OPEN)
         (media' <- get data "media" ;;
          payload <- get media' "payload" ;;
          send (ToAi (Input_audio_buffer_append payload)))
     else if strict_eq_str event "start" then
       start <- get data "start" ;;
       sid <- get start "streamSid" ;;
       assign (set_streamSid sid) ;;
       assign (set_responseStartTimestampTwilio JNull) ;;
       assign (set_latestMediaTimestamp (JNum 0))
     else if strict_eq_str event "mark" then
       queue <- read markQueue ;;
       when (0 <? length queue)%nat
         (assign (set_markQueue (tl queue)))
     else
       ret tt).

(** ** A session as a reactor

    The event loop runs one handler to completion before the next: a session
    is a fold of the two handlers over the frames in arrival order. *)
Inductive frame : Type :=
| FromTelephony (ai_state : readyState) (message : option jsval)
| FromAi (data : option jsval).

Definition handle (f : frame) : M unit :=
  match f with
  | FromTelephony ai_state message => ws_on_message ai_state message
  | FromAi data => openAiWs_on_message data
  end.

Fixpoint run (frames : list frame) (s : session) : session * list sent :=
  match frames with
  | [] => (s, [])
  | f :: rest =>
      let s1 := state_after (handle f) s in
      let '(s2, out) := run rest s1 in
      (s2, (sent_by (handle f) s ++ out)%list)
  end.

(** States a session can be in. *)
Inductive reachable : session -> Prop :=
| reachable_new : reachable new_session
| reachable_step (f : frame) (s : session) :
    reachable s -> reachable (state_after (handle f) s).

(** ** Counting what was sent *)

Definition is_telephony_media (e : sent) : bool :=
  match e with ToTelephony (Media _ _) => true | _ => false end.
Definition is_telephony_mark (e : sent) : bool :=
  match e with ToTelephony (Mark _ _) => true | _ => false end.
Definition is_telephony_clear (e : sent) : bool :=
  match e with ToTelephony (Clear _) => true | _ => false end.
Definition is_ai_truncate (e : sent) : bool :=
  match e with ToAi (Conversation_item_truncate _ _ _) => true | _ => false end.
Definition is_ai_append (e : sent) : bool :=
  match e with ToAi (Input_audio_buffer_append _) => true | _ => false end.

Definition count (p : sent -> bool) (out : list sent) : nat :=
  length (filter p out).

End Bridge.

(** ** Frames by kind *)

(** An AI-link frame of kind [t]: [response.type === t]. *)
Definition has_type (response : jsval) (t : string) : Prop :=
  member response "type" = Some (JStr t).

(** A telephony frame of kind [e]: [data.event === e]. *)
Definition has_event (data : jsval) (e : string) : Prop :=
  member data "event" = Some (JStr e).

(** Frames used in examples. *)
Definition speech_started_frame : jsval :=
  JObj [("type", JStr "input_audio_buffer.speech_started")].

Definition audio_delta_frame (delta : string) : jsval :=
  JObj [("type", JStr "response.audio.delta"); ("delta", JStr delta)].

Definition start_frame (sid : string) : jsval :=
  JObj [("event", JStr "start"); ("start", JObj [("streamSid", JStr sid)])].

Definition media_frame (timestamp : Z) (payload : string) : jsval :=
  JObj [("event", JStr "media");
        ("media", JObj [("timestamp", JNum timestamp); ("payload", JStr payload)])].

Definition mark_frame : jsval :=
  JObj [("event", JStr "mark"); ("mark", JObj [("name", JStr "responsePart")])].

(** ** Frames in bulk *)

(** [typeof v === "object" && v !== null && !Array.isArray(v)]: the values
    that can carry a [type] or an [event] member. *)
Definition is_object (v : jsval) : bool :=
  match v with
  | JObj _ => true
  | _ => false
  end.

(** What a frame parses to. *)
Definition frame_payload (f : frame) : option jsval :=
  match f with
  | FromTelephony _ message => message
  | FromAi data => data
  end.

(** A caller's audio: for each chunk the state of the AI link when it
    arrives, its timestamp and its payload. *)
Definition chunk : Type := (readyState * Z * string)%type.

Definition chunk_frame (c : chunk) : frame :=
  match c with
  | (ai_state, timestamp, payload) =>
      FromTelephony ai_state (Some (media_frame timestamp payload))
  end.

(** The appends owed to the AI link for the chunks that found it open. *)
Fixpoint appends_of (chunks : list chunk) : list sent :=
  match chunks with
  | [] => []
  | (OPEN, _, payload) :: rest =>
      ToAi (Input_audio_buffer_append (JStr payload)) :: appends_of rest
  | _ :: rest => appends_of rest
  end.

(** The timestamp of the last chunk, [otherwise] if there is none. *)
Fixpoint last_timestamp (chunks : list chunk) (otherwise : jsval) : jsval :=
  match chunks with
  | [] => otherwise
  | (_, timestamp, _) :: rest => last_timestamp rest (JNum timestamp)
  end.

(** [n] acknowledgements in a row. *)
Definition mark_frames (ai_state : readyState) (n : nat) : list frame :=
  repeat (FromTelephony ai_state (Some mark_frame)) n.

(** * Properties *)

Ltac js_unfold :=
  unfold state_after, sent_by, handle, openAiWs_on_message, ws_on_message,
    handleSpeechStartedEvent, sendMark, Buffer_from_base64_toString,
    try_catch, JSON_parse, get, when, bind, ret, read, assign, send, throw,
    has_type, has_event in *.

Section Properties.

Variable rt : runtime.

(** ** Interruption *)

(** C1. With latestMediaTimestamp = 5000, responseStartTimestamp = 3000,
    lastAssistantItemId = "X" and a non-empty markQueue, a speech_started
    frame from the AI link sends exactly two messages: one
    conversation.item.truncate for item "X" at content index 0 with
    audio_end_ms = 2000 to the AI link, then one clear to the telephony
    link; afterwards markQueue is empty and lastAssistantItemId and
    responseStartTimestamp are null. *)
Theorem speech_started_truncates_and_clears
    (sid : jsval) (queue : list string) (response : jsval) :
  has_type response "input_audio_buffer.speech_started" ->
  queue <> [] ->
  let s := {| streamSid := sid;
              latestMediaTimestamp := JNum 5000;
              lastAssistantItem := JStr "X";
              markQueue := queue;
              responseStartTimestampTwilio := JNum 3000 |} in
  let out := sent_by (openAiWs_on_message rt (Some response)) s in
  out = [ToAi (Conversation_item_truncate (JStr "X") 0 (Num 2000));
         ToTelephony (Clear sid)]
  /\ count is_ai_truncate out = 1%nat
  /\ count is_telephony_clear out = 1%nat
  /\ state_after (openAiWs_on_message rt (Some response)) s =
    {| streamSid := sid;
       latestMediaTimestamp := JNum 5000;
       lastAssistantItem := JNull;
       markQueue := [];
       responseStartTimestampTwilio := JNull |}.
Proof.
  intros Htype Hqueue s out. subst out.
  destruct queue as [|token queue]; [congruence|].
  js_unfold. rewrite Htype. simpl. repeat split.
Qed.

(** C6. When markQueue is empty or responseStartTimestamp is unset ([null],
    or [undefined]), a speech_started frame sends nothing on either link and
    leaves the whole session state as it was. *)
Theorem speech_started_without_response_is_noop (s : session) (response : jsval) :
  has_type response "input_audio_buffer.speech_started" ->
  markQueue s = [] \/ loose_eq_null (responseStartTimestampTwilio s) = true ->
  sent_by (openAiWs_on_message rt (Some response)) s = []
  /\ state_after (openAiWs_on_message rt (Some response)) s = s.
Proof.
  intros Htype Hguard.
  js_unfold. rewrite Htype. simpl.
  destruct Hguard as [Hq | Hstart].
  - rewrite Hq. simpl. split; reflexivity.
  - rewrite Hstart, andb_false_r. simpl. split; reflexivity.
Qed.

(** ** Audio return path (AI link to telephony) *)

(** C9. A response.audio.delta frame whose [delta] is absent or the empty
    string sends nothing and changes no field of the session state. *)
Theorem empty_delta_is_noop (s : session) (response : jsval) :
  has_type response "response.audio.delta" ->
  member response "delta" = Some JUndefined \/
  member response "delta" = Some (JStr "") ->
  sent_by (openAiWs_on_message rt (Some response)) s = []
  /\ state_after (openAiWs_on_message rt (Some response)) s = s.
Proof.
  intros Htype Hdelta.
  js_unfold. rewrite Htype. simpl.
  destruct Hdelta as [Hdelta | Hdelta]; rewrite Hdelta; simpl;
    split; reflexivity.
Qed.

(** C2, amended. A response.audio.delta frame whose [delta] is a non-empty
    string, processed while streamSid is set (truthy), sends exactly one
    telephony media message followed by exactly one telephony mark message,
    and markQueue grows by exactly one token, appended at its end. *)
Theorem audio_delta_sends_media_and_mark
    (s : session) (response : jsval) (delta : string) :
  has_type response "response.audio.delta" ->
  member response "delta" = Some (JStr delta) ->
  delta <> "" ->
  truthy (streamSid s) = true ->
  let out := sent_by (openAiWs_on_message rt (Some response)) s in
  let s' := state_after (openAiWs_on_message rt (Some response)) s in
  out = [ToTelephony (Media (streamSid s) (base64_reencode rt delta));
         ToTelephony (Mark (streamSid s) "responsePart")]
  /\ count is_telephony_media out = 1%nat
  /\ count is_telephony_mark out = 1%nat
  /\ markQueue s' = (markQueue s ++ ["responsePart"])%list
  /\ length (markQueue s') = S (length (markQueue s)).
Proof.
  intros Htype Hdelta Hne Hsid out s'.
  assert (Hd : (delta =? "")%string = false) by (apply String.eqb_neq; exact Hne).
  assert (Hout : out = [ToTelephony (Media (streamSid s) (base64_reencode rt delta));
                        ToTelephony (Mark (streamSid s) "responsePart")]
                 /\ markQueue s' = (markQueue s ++ ["responsePart"])%list).
  { subst out s'. js_unfold. rewrite Htype. simpl. rewrite Hdelta. simpl.
    rewrite Hd. simpl.
    destruct (truthy (responseStartTimestampTwilio s)); simpl;
      (destruct (member response "item_id") as [item_id|] eqn:Hitem;
       [ destruct (truthy item_id); simpl; rewrite Hsid; simpl; split; reflexivity
       | destruct response; simpl in *; congruence ]). }
  destruct Hout as [Hout Hqueue].
  rewrite Hout, Hqueue. repeat split.
  rewrite length_app. simpl. lia.
Qed.

(** ** Telephony frames *)

(** C5. A telephony media frame sets latestMediaTimestamp to the frame's
    [media.timestamp] whatever the state of the AI link, and changes nothing
    else; its [media.payload] is sent on as exactly one
    input_audio_buffer.append carrying the same payload when the AI link is
    open, and nothing at all is sent when it is not. *)
Theorem media_frame_updates_timestamp_and_forwards
    (ai_state : readyState) (s : session) (data media timestamp payload : jsval) :
  has_event data "media" ->
  member data "media" = Some media ->
  member media "timestamp" = Some timestamp ->
  member media "payload" = Some payload ->
  let out := sent_by (ws_on_message ai_state (Some data)) s in
  let s' := state_after (ws_on_message ai_state (Some data)) s in
  s' = set_latestMediaTimestamp timestamp s
  /\ latestMediaTimestamp s' = timestamp
  /\ (ai_state = OPEN -> out = [ToAi (Input_audio_buffer_append payload)])
  /\ (ai_state <> OPEN -> out = [])
  /\ (count is_ai_append out = 1%nat <-> ai_state = OPEN).
Proof.
  intros Hevent Hmedia Hts Hpayload out s'.
  subst out s'. js_unfold. rewrite Hevent. simpl.
  rewrite Hmedia. simpl. rewrite Hts. simpl.
  destruct ai_state; simpl; rewrite ?Hmedia; simpl; rewrite ?Hpayload; simpl;
    repeat split; intros; try reflexivity; try congruence; try discriminate.
Qed.

(** C8. A telephony start frame stores the frame's [start.streamSid] in
    streamSid, sets latestMediaTimestamp to 0 whatever it was, and sets
    responseStartTimestamp to null. *)
Theorem start_frame_opens_stream_epoch
    (ai_state : readyState) (s : session) (data start sid : jsval) :
  has_event data "start" ->
  member data "start" = Some start ->
  member start "streamSid" = Some sid ->
  let s' := state_after (ws_on_message ai_state (Some data)) s in
  streamSid s' = sid
  /\ latestMediaTimestamp s' = JNum 0
  /\ responseStartTimestampTwilio s' = JNull
  /\ sent_by (ws_on_message ai_state (Some data)) s = [].
Proof.
  intros Hevent Hstart Hsid s'.
  subst s'. js_unfold. rewrite Hevent. simpl.
  rewrite Hstart. simpl. rewrite Hsid. simpl.
  repeat split.
Qed.

(** C10. A telephony start frame leaves markQueue and lastAssistantItemId
    as they were: tokens and the item identifier gathered before a stream
    restart survive it. *)
Theorem start_frame_keeps_queue_and_item
    (ai_state : readyState) (s : session) (data : jsval) :
  has_event data "start" ->
  let s' := state_after (ws_on_message ai_state (Some data)) s in
  markQueue s' = markQueue s
  /\ lastAssistantItem s' = lastAssistantItem s.
Proof.
  intros Hevent s'.
  subst s'. js_unfold. rewrite Hevent. simpl.
  destruct (member data "start") as [start|]; simpl; [|split; reflexivity].
  destruct (member start "streamSid"); simpl; split; reflexivity.
Qed.

(** C7. A telephony mark frame removes the oldest token of markQueue when
    there is one and does nothing to an empty queue: the length drops by one
    or stays at zero, and what remains is the queue without its head. *)
Theorem mark_frame_pops_oldest
    (ai_state : readyState) (s : session) (data : jsval) :
  has_event data "mark" ->
  let s' := state_after (ws_on_message ai_state (Some data)) s in
  (markQueue s <> [] -> S (length (markQueue s')) = length (markQueue s))
  /\ (markQueue s = [] -> length (markQueue s') = 0%nat)
  /\ (forall oldest rest, markQueue s = oldest :: rest -> markQueue s' = rest)
  /\ length (markQueue s') = (length (markQueue s) - 1)%nat.
Proof.
  intros Hevent s'.
  subst s'. js_unfold. rewrite Hevent. simpl.
  destruct (markQueue s) as [|oldest rest] eqn:Hq; simpl.
  - rewrite Hq. repeat split; try reflexivity; congruence.
  - repeat split; try congruence; try lia.
Qed.

(** ** When streamSid is not known yet *)

(** The telephony handler never writes to the telephony link. *)
Lemma ws_on_message_sends_to_ai_only
    (ai_state : readyState) (message : option jsval) (s : session) (e : sent) :
  In e (sent_by (ws_on_message ai_state message) s) ->
  exists a, e = ToAi a.
Proof.
  js_unfold. destruct message as [data|]; simpl; [|tauto].
  destruct (member data "event") as [event|]; simpl; [|tauto].
  destruct (strict_eq_str event "media").
  { destruct (member data "media") as [media|]; simpl; [|tauto].
    destruct (member media "timestamp"); simpl; [|tauto].
    destruct (readyState_eqb ai_state OPEN); simpl; [|tauto].
    destruct (member media "payload"); simpl; [|tauto].
    intros [<-|[]]. eauto. }
  destruct (strict_eq_str event "start").
  { destruct (member data "start") as [start|]; simpl; [|tauto].
    destruct (member start "streamSid"); simpl; tauto. }
  destruct (strict_eq_str event "mark"); simpl; [|tauto].
  destruct (0 <? length (markQueue s))%nat; simpl; tauto.
Qed.

(** [sendMark] is guarded: while streamSid is unset (or otherwise falsy) no
    frame of either link makes the session send a telephony mark. *)
Lemma no_mark_without_streamSid (f : frame) (s : session) :
  truthy (streamSid s) = false ->
  count is_telephony_mark (sent_by (handle rt f) s) = 0%nat.
Proof.
  intros Hsid. destruct f as [ai_state message | data].
  - unfold count. simpl handle.
    assert (Hall : forall e, In e (sent_by (ws_on_message ai_state message) s) ->
                             is_telephony_mark e = false).
    { intros e He. apply ws_on_message_sends_to_ai_only in He.
      destruct He as [a ->]. reflexivity. }
    induction (sent_by (ws_on_message ai_state message) s) as [|e out IH];
      [reflexivity|].
    simpl. rewrite (Hall e (or_introl eq_refl)). apply IH.
    intros e' He'. apply Hall. right. exact He'.
  - js_unfold. destruct data as [response|]; simpl; [|reflexivity].
    destruct (member response "type") as [type|] eqn:Htype; simpl; [|reflexivity].
    destruct (strict_eq_str type "response.audio.delta") eqn:Hdelta.
    + assert (Hother : strict_eq_str type "input_audio_buffer.speech_started" = false).
      { destruct type; simpl in *; try reflexivity.
        apply String.eqb_eq in Hdelta. subst s0. reflexivity. }
      rewrite Hother.
      destruct (member response "delta") as [delta|]; simpl; [|reflexivity].
      destruct (truthy delta); simpl; [|reflexivity].
      destruct delta; simpl; try reflexivity;
        try (destruct (base64_of_object rt _); simpl; [|reflexivity]);
        destruct (truthy (responseStartTimestampTwilio s)); simpl;
        (destruct (member response "item_id") as [item_id|]; simpl;
         [ destruct (truthy item_id); simpl; rewrite Hsid; reflexivity
         | reflexivity ]).
    + simpl.
      destruct (strict_eq_str type "input_audio_buffer.speech_started"); simpl;
        [|reflexivity].
      destruct ((0 <? length (markQueue s))%nat
                && negb (loose_eq_null (responseStartTimestampTwilio s))); simpl;
        [|reflexivity].
      destruct (truthy (lastAssistantItem s)); reflexivity.
Qed.

(** C3 fails on the code for media: the delta branch of
    [openAiWs.on("message")] sends the telephony media message without the
    test on streamSid that [sendMark] makes.  In the state a connection
    starts in, streamSid is null, and a response.audio.delta frame makes the
    session send a telephony media message carrying [streamSid: null]. *)
Theorem media_sent_while_streamSid_unset :
  reachable rt new_session
  /\ streamSid new_session = JNull
  /\ sent_by (handle rt (FromAi (Some (audio_delta_frame "QkJC")))) new_session
     = [ToTelephony (Media JNull (base64_reencode rt "QkJC"))].
Proof.
  split; [constructor|]. split; reflexivity.
Qed.

(** The clear message is not guarded either: a start frame without
    [streamSid] sets streamSid to undefined while markQueue keeps its
    tokens; after one more delta, a speech_started frame sends a clear
    without stream identifier. *)
Example clear_sent_while_streamSid_unset :
  run rt [FromTelephony OPEN (Some (start_frame "S1"));
          FromAi (Some (audio_delta_frame "QkJC"));
          FromTelephony OPEN (Some (JObj [("event", JStr "start"); ("start", JObj [])]));
          FromAi (Some (audio_delta_frame "QkJC"));
          FromAi (Some speech_started_frame)] new_session
  = ({| streamSid := JUndefined;
        latestMediaTimestamp := JNum 0;
        lastAssistantItem := JNull;
        markQueue := [];
        responseStartTimestampTwilio := JNull |},
     [ToTelephony (Media (JStr "S1") (base64_reencode rt "QkJC"));
      ToTelephony (Mark (JStr "S1") "responsePart");
      ToTelephony (Media JUndefined (base64_reencode rt "QkJC"));
      ToTelephony (Clear JUndefined)]).
Proof. reflexivity. Qed.

(** ** The anchor of a response *)

(** X20. The first delta of a response: responseStartTimestamp is unset
    (or otherwise falsy), the delta is a non-empty string, and the frame
    anchors the response at the current latestMediaTimestamp. *)
Lemma first_delta_sets_anchor (s : session) (response : jsval) (delta : string) :
  has_type response "response.audio.delta" ->
  member response "delta" = Some (JStr delta) ->
  delta <> "" ->
  truthy (responseStartTimestampTwilio s) = false ->
  responseStartTimestampTwilio (state_after (openAiWs_on_message rt (Some response)) s)
  = latestMediaTimestamp s.
Proof.
  intros Htype Hdelta Hne Hunset.
  assert (Hd : (delta =? "")%string = false) by (apply String.eqb_neq; exact Hne).
  js_unfold. rewrite Htype. simpl. rewrite Hdelta. simpl. rewrite Hd. simpl.
  rewrite Hunset. simpl.
  destruct (member response "item_id") as [item_id|]; simpl; [|reflexivity].
  destruct (truthy item_id); simpl; destruct (truthy (streamSid s)); reflexivity.
Qed.

(** X21. A later delta: an anchor that is truthy (a timestamp other than 0)
    is kept by every response.audio.delta frame. *)
Lemma later_delta_keeps_truthy_anchor (s : session) (response : jsval) :
  has_type response "response.audio.delta" ->
  truthy (responseStartTimestampTwilio s) = true ->
  responseStartTimestampTwilio (state_after (openAiWs_on_message rt (Some response)) s)
  = responseStartTimestampTwilio s.
Proof.
  intros Htype Hset.
  js_unfold. rewrite Htype. simpl.
  destruct (member response "delta") as [delta|]; simpl; [|reflexivity].
  destruct (truthy delta); simpl; [|reflexivity].
  destruct delta; simpl; try reflexivity;
    try (destruct (base64_of_object rt _); simpl; [|reflexivity]);
    rewrite Hset; simpl;
    (destruct (member response "item_id") as [item_id|]; simpl; [|reflexivity];
     destruct (truthy item_id); simpl; destruct (truthy (streamSid s)); reflexivity).
Qed.

(** C4 fails on the code when a response starts at timestamp 0.  The delta
    branch tests [!responseStartTimestampTwilio], which takes the anchor 0
    for unset, whereas [handleSpeechStartedEvent] tests [!= null], which
    takes it for set.  After a start frame latestMediaTimestamp is 0; the
    first delta anchors the response at 0; a media frame stamped 100
    follows; the second delta of the same response assigns the anchor again,
    now 100. *)
Theorem response_start_reassigned_within_response :
  let s0 := state_after (handle rt (FromTelephony OPEN (Some (start_frame "S1")))) new_session in
  let s1 := state_after (handle rt (FromAi (Some (audio_delta_frame "QUFB")))) s0 in
  let s2 := state_after (handle rt (FromTelephony OPEN (Some (media_frame 100 "QUFB")))) s1 in
  let s3 := state_after (handle rt (FromAi (Some (audio_delta_frame "QkJC")))) s2 in
  responseStartTimestampTwilio s0 = JNull
  /\ latestMediaTimestamp s0 = JNum 0
  /\ responseStartTimestampTwilio s1 = JNum 0
  /\ markQueue s1 = ["responsePart"]
  /\ responseStartTimestampTwilio s2 = JNum 0
  /\ responseStartTimestampTwilio s3 = JNum 100.
Proof.
  repeat split.
Qed.

End Properties.

(** * The statements at concrete frames *)

(** C2 as first stated fails: a response.audio.delta frame that reaches a
    session whose streamSid is still null is answered by the media message
    alone; [sendMark] skips the mark and leaves markQueue as it is. *)
Lemma audio_delta_without_streamSid_sends_no_mark :
  ~ (forall (rt : runtime) (s : session) (response : jsval),
       has_type response "response.audio.delta" ->
       let out := sent_by (openAiWs_on_message rt (Some response)) s in
       let s' := state_after (openAiWs_on_message rt (Some response)) s in
       count is_telephony_media out = 1%nat
       /\ count is_telephony_mark out = 1%nat
       /\ length (markQueue s') = S (length (markQueue s))).
Proof.
  intros Hclaim.
  destruct (Hclaim sample_runtime new_session (audio_delta_frame "QkJC") eq_refl)
    as (_ & Hmark & _).
  vm_compute in Hmark. discriminate Hmark.
Qed.

Lemma speech_started_truncates_and_clears_witness :
  let s := {| streamSid := JStr "S1";
              latestMediaTimestamp := JNum 5000;
              lastAssistantItem := JStr "X";
              markQueue := ["responsePart"; "responsePart"];
              responseStartTimestampTwilio := JNum 3000 |} in
  let out := sent_by (openAiWs_on_message sample_runtime (Some speech_started_frame)) s in
  out = [ToAi (Conversation_item_truncate (JStr "X") 0 (Num 2000));
         ToTelephony (Clear (JStr "S1"))]
  /\ count is_ai_truncate out = 1%nat
  /\ count is_telephony_clear out = 1%nat
  /\ state_after (openAiWs_on_message sample_runtime (Some speech_started_frame)) s =
    {| streamSid := JStr "S1";
       latestMediaTimestamp := JNum 5000;
       lastAssistantItem := JNull;
       markQueue := [];
       responseStartTimestampTwilio := JNull |}.
Proof.
  apply (speech_started_truncates_and_clears sample_runtime (JStr "S1")
           ["responsePart"; "responsePart"] speech_started_frame).
  - reflexivity.
  - discriminate.
Defined.

Lemma speech_started_without_response_is_noop_witness :
  let s := {| streamSid := JStr "S1";
              latestMediaTimestamp := JNum 5000;
              lastAssistantItem := JStr "X";
              markQueue := ["responsePart"];
              responseStartTimestampTwilio := JNull |} in
  sent_by (openAiWs_on_message sample_runtime (Some speech_started_frame)) s = []
  /\ state_after (openAiWs_on_message sample_runtime (Some speech_started_frame)) s = s.
Proof.
  apply (speech_started_without_response_is_noop sample_runtime).
  - reflexivity.
  - right. reflexivity.
Defined.

Lemma empty_delta_is_noop_witness :
  let s := set_streamSid (JStr "S1") new_session in
  sent_by (openAiWs_on_message sample_runtime (Some (audio_delta_frame ""))) s = []
  /\ state_after (openAiWs_on_message sample_runtime (Some (audio_delta_frame ""))) s = s.
Proof.
  apply (empty_delta_is_noop sample_runtime).
  - reflexivity.
  - right. reflexivity.
Defined.

Lemma audio_delta_sends_media_and_mark_witness :
  let s := set_streamSid (JStr "S1") new_session in
  let out := sent_by (openAiWs_on_message sample_runtime (Some (audio_delta_frame "QkJC"))) s in
  let s' := state_after (openAiWs_on_message sample_runtime (Some (audio_delta_frame "QkJC"))) s in
  out = [ToTelephony (Media (JStr "S1") "QkJC");
         ToTelephony (Mark (JStr "S1") "responsePart")]
  /\ count is_telephony_media out = 1%nat
  /\ count is_telephony_mark out = 1%nat
  /\ markQueue s' = ["responsePart"]
  /\ length (markQueue s') = 1%nat.
Proof.
  apply (audio_delta_sends_media_and_mark sample_runtime
           (set_streamSid (JStr "S1") new_session) (audio_delta_frame "QkJC") "QkJC").
  - reflexivity.
  - reflexivity.
  - discriminate.
  - reflexivity.
Defined.

Lemma media_frame_updates_timestamp_and_forwards_witness :
  let out := sent_by (ws_on_message CLOSED (Some (media_frame 100 "QUFB"))) new_session in
  let s' := state_after (ws_on_message CLOSED (Some (media_frame 100 "QUFB"))) new_session in
  s' = set_latestMediaTimestamp (JNum 100) new_session
  /\ latestMediaTimestamp s' = JNum 100
  /\ (CLOSED = OPEN -> out = [ToAi (Input_audio_buffer_append (JStr "QUFB"))])
  /\ (CLOSED <> OPEN -> out = [])
  /\ (count is_ai_append out = 1%nat <-> CLOSED = OPEN).
Proof.
  apply (media_frame_updates_timestamp_and_forwards CLOSED new_session
           (media_frame 100 "QUFB")
           (JObj [("timestamp", JNum 100); ("payload", JStr "QUFB")])
           (JNum 100) (JStr "QUFB")); reflexivity.
Defined.

Lemma start_frame_opens_stream_epoch_witness :
  let s := {| streamSid := JNull;
              latestMediaTimestamp := JNum 740;
              lastAssistantItem := JStr "X";
              markQueue := ["responsePart"];
              responseStartTimestampTwilio := JNum 520 |} in
  let s' := state_after (ws_on_message OPEN (Some (start_frame "S1"))) s in
  streamSid s' = JStr "S1"
  /\ latestMediaTimestamp s' = JNum 0
  /\ responseStartTimestampTwilio s' = JNull
  /\ sent_by (ws_on_message OPEN (Some (start_frame "S1"))) s = [].
Proof.
  intros s.
  apply (start_frame_opens_stream_epoch OPEN s (start_frame "S1")
           (JObj [("streamSid", JStr "S1")]) (JStr "S1")); reflexivity.
Defined.

Lemma start_frame_keeps_queue_and_item_witness :
  let s := {| streamSid := JStr "S0";
              latestMediaTimestamp := JNum 740;
              lastAssistantItem := JStr "X";
              markQueue := ["responsePart"; "responsePart"];
              responseStartTimestampTwilio := JNum 520 |} in
  let s' := state_after (ws_on_message OPEN (Some (start_frame "S1"))) s in
  markQueue s' = ["responsePart"; "responsePart"]
  /\ lastAssistantItem s' = JStr "X".
Proof.
  intros s.
  exact (start_frame_keeps_queue_and_item OPEN s (start_frame "S1") eq_refl).
Defined.

Lemma mark_frame_pops_oldest_witness :
  let s := set_markQueue ["first"; "second"] new_session in
  let s' := state_after (ws_on_message OPEN (Some mark_frame)) s in
  (markQueue s <> [] -> S (length (markQueue s')) = length (markQueue s))
  /\ (markQueue s = [] -> length (markQueue s') = 0%nat)
  /\ (forall oldest rest, markQueue s = oldest :: rest -> markQueue s' = rest)
  /\ length (markQueue s') = (length (markQueue s) - 1)%nat.
Proof.
  apply (mark_frame_pops_oldest OPEN (set_markQueue ["first"; "second"] new_session)
           mark_frame).
  reflexivity.
Defined.

(** * Further properties of the two handlers *)

Section Handlers.

Variable rt : runtime.

(** ** What one frame can do *)

(** The telephony handler, by cases: a frame is dropped, or it moves
    latestMediaTimestamp and forwards at most one append, or it opens a
    stream epoch, or it pops one token. *)
Lemma ws_on_message_cases (ai_state : readyState) (message : option jsval) (s : session) :
  let s' := state_after (ws_on_message ai_state message) s in
  let out := sent_by (ws_on_message ai_state message) s in
  (s' = s /\ out = [])
  \/ (exists timestamp,
        s' = set_latestMediaTimestamp timestamp s
        /\ (out = [] \/ exists payload, out = [ToAi (Input_audio_buffer_append payload)]))
  \/ (exists sid,
        s' = set_latestMediaTimestamp (JNum 0)
               (set_responseStartTimestampTwilio JNull (set_streamSid sid s))
        /\ out = [])
  \/ (markQueue s <> [] /\ s' = set_markQueue (tl (markQueue s)) s /\ out = []).
Proof.
  js_unfold. destruct message as [data|]; simpl; [|tauto].
  destruct (member data "event") as [event|]; simpl; [|tauto].
  destruct (strict_eq_str event "media").
  { destruct (member data "media") as [media|]; simpl; [|tauto].
    destruct (member media "timestamp") as [timestamp|]; simpl; [|tauto].
    right. left. exists timestamp.
    destruct (readyState_eqb ai_state OPEN); simpl; [|tauto].
    destruct (member media "payload") as [payload|]; simpl; [|tauto].
    split; [reflexivity|]. right. exists payload. reflexivity. }
  destruct (strict_eq_str event "start").
  { destruct (member data "start") as [start|]; simpl; [|tauto].
    destruct (member start "streamSid") as [sid|]; simpl; [|tauto].
    right. right. left. exists sid. split; reflexivity. }
  destruct (strict_eq_str event "mark"); simpl; [|tauto].
  destruct (markQueue s) as [|token queue] eqn:Hqueue; simpl; [tauto|].
  right. right. right. repeat split. discriminate.
Qed.

(** The AI-link handler, by cases: a frame is dropped, or it is a delta that
    goes out as media (and as a mark when streamSid is truthy), or it is a
    speech_started that interrupts. *)
Lemma openAiWs_on_message_cases (data : option jsval) (s : session) :
  let s' := state_after (openAiWs_on_message rt data) s in
  let out := sent_by (openAiWs_on_message rt data) s in
  (s' = s /\ out = [])
  \/ (exists payload start' item',
        (start' = responseStartTimestampTwilio s
         \/ start' = latestMediaTimestamp s)
        /\ (item' = lastAssistantItem s \/ truthy item' = true)
        /\ s' = {| streamSid := streamSid s;
                   latestMediaTimestamp := latestMediaTimestamp s;
                   lastAssistantItem := item';
                   markQueue := if truthy (streamSid s)
                                then (markQueue s ++ ["responsePart"])%list
                                else markQueue s;
                   responseStartTimestampTwilio := start' |}
        /\ out = ToTelephony (Media (streamSid s) payload)
                 :: (if truthy (streamSid s)
                     then [ToTelephony (Mark (streamSid s) "responsePart")]
                     else []))
  \/ (markQueue s <> []
      /\ loose_eq_null (responseStartTimestampTwilio s) = false
      /\ s' = {| streamSid := streamSid s;
                 latestMediaTimestamp := latestMediaTimestamp s;
                 lastAssistantItem := JNull;
                 markQueue := [];
                 responseStartTimestampTwilio := JNull |}
      /\ out = ((if truthy (lastAssistantItem s)
                 then [ToAi (Conversation_item_truncate (lastAssistantItem s) 0
                               (js_sub (latestMediaTimestamp s)
                                       (responseStartTimestampTwilio s)))]
                 else [])
                ++ [ToTelephony (Clear (streamSid s))])%list).
Proof.
  destruct s as [sid latest item queue start].
  js_unfold. destruct data as [response|]; simpl; [|tauto].
  destruct (member response "type") as [type|] eqn:Htype; simpl; [|tauto].
  destruct (strict_eq_str type "response.audio.delta") eqn:Hdelta.
  - assert (Hother : strict_eq_str type "input_audio_buffer.speech_started" = false).
    { destruct type; simpl in *; try reflexivity.
      apply String.eqb_eq in Hdelta. subst s. reflexivity. }
    rewrite Hother.
    destruct (member response "delta") as [delta|]; simpl; [|tauto].
    destruct (truthy delta); simpl; [|tauto].
    destruct delta; simpl; try tauto;
      try (destruct (base64_of_object rt _); simpl; [|tauto]);
      right; left; eexists;
      (destruct (truthy start) eqn:Hstart; simpl;
       (destruct (member response "item_id") as [item_id|] eqn:Hitem;
        [ | destruct response; simpl in *; congruence ]);
       simpl; destruct (truthy item_id) eqn:Htruthy; simpl;
       destruct (truthy sid); simpl;
       eexists; eexists; (split; [|split; [|split; reflexivity]]); tauto).
  - simpl.
    destruct (strict_eq_str type "input_audio_buffer.speech_started"); simpl;
      [|tauto].
    destruct queue as [|token queue]; simpl; [tauto|].
    destruct (loose_eq_null start) eqn:Hstart; simpl; [tauto|].
    right. right.
    destruct (truthy item); simpl; repeat split; discriminate.
Qed.

(** ** Frames that are dropped *)

(** X1. A frame of either link that is not JSON, or that parses to anything
    but an object ([null], a number, a string, a boolean, an array), is
    dropped: nothing is sent and the session state stays as it was.  The
    TypeError raised on [null] is caught by the handler's [try]. *)
Theorem frame_that_is_not_an_object_is_dropped (f : frame) (s : session) :
  (forall v, frame_payload f = Some v -> is_object v = false) ->
  sent_by (handle rt f) s = [] /\ state_after (handle rt f) s = s.
Proof.
  intros Hpayload.
  destruct f as [ai_state [data|] | [response|]]; simpl in Hpayload;
    try (split; reflexivity).
  - specialize (Hpayload data eq_refl).
    destruct data; try discriminate Hpayload; split; reflexivity.
  - specialize (Hpayload response eq_refl).
    destruct response; try discriminate Hpayload; split; reflexivity.
Qed.

(** X2. A telephony media frame whose [media] member is missing or null is
    dropped whole: reading [data.media.timestamp] throws before the
    assignment, so latestMediaTimestamp keeps its value and nothing is
    forwarded, also when the AI link is open. *)
Theorem media_frame_without_media_is_dropped
    (ai_state : readyState) (s : session) (data media : jsval) :
  has_event data "media" ->
  member data "media" = Some media ->
  loose_eq_null media = true ->
  sent_by (ws_on_message ai_state (Some data)) s = []
  /\ state_after (ws_on_message ai_state (Some data)) s = s.
Proof.
  intros Hevent Hmedia Hnull.
  js_unfold. rewrite Hevent. simpl. rewrite Hmedia. simpl.
  destruct media; try discriminate Hnull; split; reflexivity.
Qed.

(** X3. A telephony start frame whose [start] member is missing or null is
    dropped whole: streamSid keeps its value, and neither
    latestMediaTimestamp nor responseStartTimestamp is reset. *)
Theorem start_frame_without_start_is_dropped
    (ai_state : readyState) (s : session) (data start : jsval) :
  has_event data "start" ->
  member data "start" = Some start ->
  loose_eq_null start = true ->
  sent_by (ws_on_message ai_state (Some data)) s = []
  /\ state_after (ws_on_message ai_state (Some data)) s = s.
Proof.
  intros Hevent Hstart Hnull.
  js_unfold. rewrite Hevent. simpl. rewrite Hstart. simpl.
  destruct start; try discriminate Hnull; split; reflexivity.
Qed.

(** X4. A telephony frame whose [event] is none of "media", "start" and
    "mark" (a stop frame, a frame without [event], an [event] that is not a
    string) falls to the [default] case: nothing is sent, nothing changes. *)
Theorem unrecognised_telephony_event_is_ignored
    (ai_state : readyState) (s : session) (data event : jsval) :
  member data "event" = Some event ->
  strict_eq_str event "media" = false ->
  strict_eq_str event "start" = false ->
  strict_eq_str event "mark" = false ->
  sent_by (ws_on_message ai_state (Some data)) s = []
  /\ state_after (ws_on_message ai_state (Some data)) s = s.
Proof.
  intros Hevent Hmedia Hstart Hmark.
  js_unfold. rewrite Hevent. simpl. rewrite Hmedia, Hstart, Hmark.
  split; reflexivity.
Qed.

(** X5. An AI-link frame whose [type] is neither "response.audio.delta" nor
    "input_audio_buffer.speech_started" (session.created, response.done,
    error, ...) sends nothing and changes nothing. *)
Theorem other_ai_event_is_ignored (s : session) (response type : jsval) :
  member response "type" = Some type ->
  strict_eq_str type "response.audio.delta" = false ->
  strict_eq_str type "input_audio_buffer.speech_started" = false ->
  sent_by (openAiWs_on_message rt (Some response)) s = []
  /\ state_after (openAiWs_on_message rt (Some response)) s = s.
Proof.
  intros Htype Hdelta Hspeech.
  js_unfold. rewrite Htype. simpl. rewrite Hdelta. simpl.
  rewrite Hspeech. split; reflexivity.
Qed.

(** X6. A delta that [Buffer.from] refuses (a number, [true], or an array or
    object the runtime rejects) throws before [ws.send]: the frame sends
    nothing, and neither responseStartTimestamp nor lastAssistantItemId nor
    markQueue is touched, whatever [item_id] the frame carries. *)
Theorem refused_delta_is_dropped (s : session) (response delta : jsval) :
  has_type response "response.audio.delta" ->
  member response "delta" = Some delta ->
  match delta with
  | JStr _ => False
  | JArr _ | JObj _ => base64_of_object rt delta = None
  | _ => True
  end ->
  sent_by (openAiWs_on_message rt (Some response)) s = []
  /\ state_after (openAiWs_on_message rt (Some response)) s = s.
Proof.
  intros Htype Hdelta Hrefused.
  js_unfold. rewrite Htype. simpl. rewrite Hdelta. simpl.
  destruct delta; simpl; try contradiction;
    try rewrite Hrefused;
    repeat match goal with
           | |- context [if ?c then _ else _] => destruct c; simpl
           end;
    split; reflexivity.
Qed.

(** ** What each handler leaves alone *)

(** X7. Whatever the telephony frame, the telephony handler writes nothing
    back to the telephony link, sends at most one message, and that message
    is an input_audio_buffer.append; it never touches lastAssistantItemId. *)
Theorem telephony_frame_footprint
    (ai_state : readyState) (message : option jsval) (s : session) :
  let s' := state_after (ws_on_message ai_state message) s in
  let out := sent_by (ws_on_message ai_state message) s in
  (length out <= 1)%nat
  /\ count is_ai_append out = length out
  /\ lastAssistantItem s' = lastAssistantItem s.
Proof.
  intros s' out. subst s' out.
  destruct (ws_on_message_cases ai_state message s)
    as [[Hs Hout] | [(timestamp & Hs & [Hout | [payload Hout]])
                    | [(sid & Hs & Hout) | (_ & Hs & Hout)]]];
    rewrite Hs, Hout; simpl; repeat split; lia.
Qed.

(** X8. Whatever the AI-link frame, the AI-link handler leaves streamSid and
    latestMediaTimestamp as they were and sends no
    input_audio_buffer.append: caller audio and stream identity are written
    by the telephony handler alone. *)
Theorem ai_frame_footprint (data : option jsval) (s : session) :
  let s' := state_after (openAiWs_on_message rt data) s in
  let out := sent_by (openAiWs_on_message rt data) s in
  streamSid s' = streamSid s
  /\ latestMediaTimestamp s' = latestMediaTimestamp s
  /\ count is_ai_append out = 0%nat.
Proof.
  intros s' out. subst s' out.
  destruct (openAiWs_on_message_cases data s)
    as [[Hs Hout] | [(payload & start' & item' & _ & _ & Hs & Hout)
                    | (_ & _ & Hs & Hout)]];
    rewrite Hs, Hout; simpl; repeat split;
    destruct (truthy (streamSid s)); try reflexivity;
    destruct (truthy (lastAssistantItem s)); reflexivity.
Qed.

(** ** Invariants of a session *)

(** One step keeps the tokens of markQueue equal to "responsePart". *)
Lemma handle_keeps_tokens (f : frame) (s : session) :
  Forall (eq "responsePart") (markQueue s) ->
  Forall (eq "responsePart") (markQueue (state_after (handle rt f) s)).
Proof.
  intros Hall. destruct f as [ai_state message | data]; simpl.
  - destruct (ws_on_message_cases ai_state message s)
      as [[Hs _] | [(timestamp & Hs & _) | [(sid & Hs & _) | (_ & Hs & _)]]];
      rewrite Hs; simpl; try exact Hall.
    destruct (markQueue s); [constructor|]. inversion Hall; assumption.
  - destruct (openAiWs_on_message_cases data s)
      as [[Hs _] | [(payload & start' & item' & _ & _ & Hs & _) | (_ & _ & Hs & _)]];
      rewrite Hs; simpl; try exact Hall; [|constructor].
    destruct (truthy (streamSid s)); [|exact Hall].
    apply Forall_app. split; [exact Hall|]. repeat constructor.
Qed.

(** X9. In every state a session can reach, every token of markQueue is the
    string "responsePart": the queue carries no information beyond its
    length. *)
Theorem markQueue_tokens_are_responsePart (s : session) :
  reachable rt s -> Forall (eq "responsePart") (markQueue s).
Proof.
  induction 1 as [|f s Hreach IH].
  - constructor.
  - apply handle_keeps_tokens. exact IH.
Qed.

(** X10. In every state a session can reach, lastAssistantItemId is either
    null or truthy: an empty, zero or absent [item_id] is never recorded. *)
Theorem lastAssistantItem_null_or_truthy (s : session) :
  reachable rt s ->
  lastAssistantItem s = JNull \/ truthy (lastAssistantItem s) = true.
Proof.
  induction 1 as [|f s Hreach IH].
  - left. reflexivity.
  - destruct f as [ai_state message | data]; simpl.
    + destruct (ws_on_message_cases ai_state message s)
        as [[Hs _] | [(timestamp & Hs & _) | [(sid & Hs & _) | (_ & Hs & _)]]];
        rewrite Hs; exact IH.
    + destruct (openAiWs_on_message_cases data s)
        as [[Hs _] | [(payload & start' & item' & _ & [Hitem | Hitem] & Hs & _)
                     | (_ & _ & Hs & _)]];
        rewrite Hs; simpl; try rewrite Hitem; tauto.
Qed.

(** ** Whole runs *)

Lemma count_app (p : sent -> bool) (a b : list sent) :
  count p (a ++ b) = (count p a + count p b)%nat.
Proof.
  unfold count. rewrite filter_app, length_app. reflexivity.
Qed.

Lemma run_cons (f : frame) (frames : list frame) (s : session) :
  run rt (f :: frames) s
  = (fst (run rt frames (state_after (handle rt f) s)),
     (sent_by (handle rt f) s
      ++ snd (run rt frames (state_after (handle rt f) s)))%list).
Proof.
  simpl. destruct (run rt frames (state_after (handle rt f) s)). reflexivity.
Qed.

(** One frame: the queue grows by at most the marks sent, marks never
    outnumber media messages, truncates never outnumber clears. *)
Lemma handle_counts (f : frame) (s : session) :
  let s' := state_after (handle rt f) s in
  let out := sent_by (handle rt f) s in
  (length (markQueue s') <= length (markQueue s) + count is_telephony_mark out)%nat
  /\ (count is_telephony_mark out <= count is_telephony_media out)%nat
  /\ (count is_ai_truncate out <= count is_telephony_clear out)%nat.
Proof.
  intros s' out. subst s' out.
  destruct f as [ai_state message | data]; simpl handle.
  - destruct (ws_on_message_cases ai_state message s)
      as [[Hs Hout] | [(timestamp & Hs & [Hout | [payload Hout]])
                      | [(sid & Hs & Hout) | (_ & Hs & Hout)]]];
      rewrite Hs, Hout; unfold count; simpl; repeat split; try lia.
    destruct (markQueue s); simpl; lia.
  - destruct (openAiWs_on_message_cases data s)
      as [[Hs Hout] | [(payload & start' & item' & _ & _ & Hs & Hout)
                      | (_ & _ & Hs & Hout)]];
      rewrite Hs, Hout; unfold count; simpl.
    + repeat split; lia.
    + destruct (truthy (streamSid s)); simpl; rewrite ?length_app; simpl;
        repeat split; lia.
    + destruct (truthy (lastAssistantItem s)); simpl; repeat split; lia.
Qed.

(** X11. Over any run from any state, markQueue ends no longer than it
    started plus the number of telephony marks sent during the run: a token
    is queued only together with a mark. *)
Theorem markQueue_bounded_by_marks_sent (frames : list frame) (s : session) :
  (length (markQueue (fst (run rt frames s)))
   <= length (markQueue s) + count is_telephony_mark (snd (run rt frames s)))%nat.
Proof.
  revert s. induction frames as [|f frames IH]; intros s.
  - simpl. lia.
  - rewrite run_cons. simpl fst. simpl snd. rewrite count_app.
    specialize (IH (state_after (handle rt f) s)).
    destruct (handle_counts f s) as (Hq & _ & _). lia.
Qed.

(** X12. Over any run from any state, the telephony marks sent never
    outnumber the telephony media messages sent, and the truncates sent to
    the AI link never outnumber the telephony clears: a mark goes out only
    after a media message, a truncate only with a clear. *)
Theorem marks_follow_media_and_truncates_follow_clears
    (frames : list frame) (s : session) :
  (count is_telephony_mark (snd (run rt frames s))
   <= count is_telephony_media (snd (run rt frames s)))%nat
  /\ (count is_ai_truncate (snd (run rt frames s))
      <= count is_telephony_clear (snd (run rt frames s)))%nat.
Proof.
  revert s. induction frames as [|f frames IH]; intros s.
  - unfold count. simpl. split; lia.
  - rewrite run_cons. simpl snd. rewrite !count_app.
    specialize (IH (state_after (handle rt f) s)).
    destruct (handle_counts f s) as (_ & Hm & Ht). lia.
Qed.

(** X13. A run of telephony media chunks forwards, in arrival order and
    with their payloads unchanged, exactly the chunks that found the AI link
    open (the others are lost, not buffered); it leaves latestMediaTimestamp
    at the timestamp of the last chunk and changes no other field. *)
Theorem chunks_forwarded_in_order (chunks : list chunk) (s : session) :
  run rt (map chunk_frame chunks) s
  = ({| streamSid := streamSid s;
        latestMediaTimestamp := last_timestamp chunks (latestMediaTimestamp s);
        lastAssistantItem := lastAssistantItem s;
        markQueue := markQueue s;
        responseStartTimestampTwilio := responseStartTimestampTwilio s |},
     appends_of chunks).
Proof.
  revert s. induction chunks as [|[[ai_state timestamp] payload] chunks IH];
    intros s.
  - destruct s. reflexivity.
  - change (map chunk_frame ((ai_state, timestamp, payload) :: chunks))
      with (chunk_frame (ai_state, timestamp, payload) :: map chunk_frame chunks).
    rewrite run_cons, IH.
    destruct ai_state; reflexivity.
Qed.

(** X14. A run of [n] telephony mark frames removes the [n] oldest tokens of
    markQueue (all of them when there are fewer), sends nothing and changes
    no other field. *)
Theorem mark_frames_drain_queue (ai_state : readyState) (n : nat) (s : session) :
  run rt (mark_frames ai_state n) s
  = ({| streamSid := streamSid s;
        latestMediaTimestamp := latestMediaTimestamp s;
        lastAssistantItem := lastAssistantItem s;
        markQueue := skipn n (markQueue s);
        responseStartTimestampTwilio := responseStartTimestampTwilio s |},
     []).
Proof.
  revert s. induction n as [|n IH]; intros s.
  - destruct s. reflexivity.
  - unfold mark_frames in *. simpl repeat. rewrite run_cons, IH.
    destruct s as [sid latest item queue start].
    destruct queue as [|token queue]; simpl; [|reflexivity].
    rewrite skipn_nil. reflexivity.
Qed.

(** ** Interruption, in general *)


(** X16. Interruption does not repeat: whatever the state, a speech_started
    frame that follows another speech_started frame sends nothing and
    changes nothing. *)
Theorem second_speech_started_is_noop (s : session) (first second : jsval) :
  has_type first "input_audio_buffer.speech_started" ->
  has_type second "input_audio_buffer.speech_started" ->
  let s1 := state_after (openAiWs_on_message rt (Some first)) s in
  sent_by (openAiWs_on_message rt (Some second)) s1 = []
  /\ state_after (openAiWs_on_message rt (Some second)) s1 = s1.
Proof.
  intros Hfirst Hsecond s1. subst s1.
  destruct s as [sid latest item queue start].
  js_unfold. rewrite Hfirst, Hsecond. simpl.
  destruct queue as [|token queue]; simpl; [split; reflexivity|].
  destruct (loose_eq_null start) eqn:Hstart; simpl.
  - rewrite Hstart. simpl. split; reflexivity.
  - destruct (truthy item); simpl; split; reflexivity.
Qed.

(** X17. A stream restart disarms interruption: after a start frame that
    has a [start] member, a speech_started frame sends nothing and changes
    nothing, even when markQueue still holds tokens of the previous epoch. *)
Theorem speech_started_after_start_is_noop
    (ai_state : readyState) (s : session) (data start response : jsval) :
  has_event data "start" ->
  member data "start" = Some start ->
  loose_eq_null start = false ->
  has_type response "input_audio_buffer.speech_started" ->
  let s1 := state_after (ws_on_message ai_state (Some data)) s in
  sent_by (openAiWs_on_message rt (Some response)) s1 = []
  /\ state_after (openAiWs_on_message rt (Some response)) s1 = s1.
Proof.
  intros Hevent Hstart Hnull Htype s1. subst s1.
  js_unfold. rewrite Hevent, Htype. simpl. rewrite Hstart. simpl.
  destruct (member start "streamSid") as [sid|] eqn:Hsid;
    [|destruct start; simpl in *; congruence].
  simpl. rewrite andb_false_r. split; reflexivity.
Qed.

(** ** The item being played *)

(** X18. A delta frame with a non-empty string [delta] records its
    [item_id] as lastAssistantItemId when that [item_id] is truthy, and
    keeps the previous lastAssistantItemId when [item_id] is absent, null or
    empty. *)
Theorem delta_records_item_id
    (s : session) (response : jsval) (delta : string) (item_id : jsval) :
  has_type response "response.audio.delta" ->
  member response "delta" = Some (JStr delta) ->
  delta <> "" ->
  member response "item_id" = Some item_id ->
  lastAssistantItem (state_after (openAiWs_on_message rt (Some response)) s)
  = if truthy item_id then item_id else lastAssistantItem s.
Proof.
  intros Htype Hdelta Hne Hitem.
  assert (Hd : (delta =? "")%string = false) by (apply String.eqb_neq; exact Hne).
  js_unfold. rewrite Htype. simpl. rewrite Hdelta. simpl. rewrite Hd. simpl.
  rewrite Hitem.
  destruct (truthy (responseStartTimestampTwilio s)); simpl;
    destruct (truthy item_id); simpl;
    destruct (truthy (streamSid s)); reflexivity.
Qed.

(** ** The guard of [sendMark] *)

(** X19. While streamSid is unset (or otherwise falsy), no frame of either
    link makes the session send a telephony mark, and no frame makes
    markQueue longer. *)
Theorem streamSid_guards_mark_and_queue (f : frame) (s : session) :
  truthy (streamSid s) = false ->
  count is_telephony_mark (sent_by (handle rt f) s) = 0%nat
  /\ (length (markQueue (state_after (handle rt f) s)) <= length (markQueue s))%nat.
Proof.
  intros Hsid. destruct f as [ai_state message | data]; simpl handle.
  - destruct (ws_on_message_cases ai_state message s)
      as [[Hs Hout] | [(timestamp & Hs & [Hout | [payload Hout]])
                      | [(sid & Hs & Hout) | (_ & Hs & Hout)]]];
      rewrite Hs, Hout; unfold count; simpl; split; try lia.
    destruct (markQueue s); simpl; lia.
  - destruct (openAiWs_on_message_cases data s)
      as [[Hs Hout] | [(payload & start' & item' & _ & _ & Hs & Hout)
                      | (_ & _ & Hs & Hout)]];
      rewrite Hs, Hout; unfold count; simpl.
    + split; lia.
    + rewrite Hsid. simpl. split; lia.
    + destruct (truthy (lastAssistantItem s)); simpl; split; lia.
Qed.

End Handlers.

(** * The further properties at concrete frames *)

Lemma frame_that_is_not_an_object_is_dropped_witness :
  let s := set_markQueue ["responsePart"] (set_streamSid (JStr "S1") new_session) in
  sent_by (handle sample_runtime (FromAi (Some JNull))) s = []
  /\ state_after (handle sample_runtime (FromAi (Some JNull))) s = s.
Proof.
  intros s.
  apply (frame_that_is_not_an_object_is_dropped sample_runtime (FromAi (Some JNull)) s).
  intros v Hv. injection Hv as <-. reflexivity.
Defined.

Lemma media_frame_without_media_is_dropped_witness :
  let data := JObj [("event", JStr "media")] in
  let s := set_latestMediaTimestamp (JNum 740) new_session in
  sent_by (ws_on_message OPEN (Some data)) s = []
  /\ state_after (ws_on_message OPEN (Some data)) s = s.
Proof.
  intros data s.
  apply (media_frame_without_media_is_dropped OPEN s data JUndefined);
    reflexivity.
Defined.

Lemma start_frame_without_start_is_dropped_witness :
  let data := JObj [("event", JStr "start"); ("start", JNull)] in
  let s := {| streamSid := JStr "S0";
              latestMediaTimestamp := JNum 740;
              lastAssistantItem := JNull;
              markQueue := [];
              responseStartTimestampTwilio := JNum 520 |} in
  sent_by (ws_on_message OPEN (Some data)) s = []
  /\ state_after (ws_on_message OPEN (Some data)) s = s.
Proof.
  intros data s.
  apply (start_frame_without_start_is_dropped OPEN s data JNull); reflexivity.
Defined.

Lemma unrecognised_telephony_event_is_ignored_witness :
  let data := JObj [("event", JStr "stop"); ("streamSid", JStr "S1")] in
  let s := set_markQueue ["responsePart"] (set_streamSid (JStr "S1") new_session) in
  sent_by (ws_on_message OPEN (Some data)) s = []
  /\ state_after (ws_on_message OPEN (Some data)) s = s.
Proof.
  intros data s.
  apply (unrecognised_telephony_event_is_ignored OPEN s data (JStr "stop"));
    reflexivity.
Defined.

Lemma other_ai_event_is_ignored_witness :
  let response := JObj [("type", JStr "response.done")] in
  let s := set_markQueue ["responsePart"] (set_streamSid (JStr "S1") new_session) in
  sent_by (openAiWs_on_message sample_runtime (Some response)) s = []
  /\ state_after (openAiWs_on_message sample_runtime (Some response)) s = s.
Proof.
  intros response s.
  apply (other_ai_event_is_ignored sample_runtime s response (JStr "response.done"));
    reflexivity.
Defined.

Lemma refused_delta_is_dropped_witness :
  let response := JObj [("type", JStr "response.audio.delta");
                        ("delta", JNum 7); ("item_id", JStr "X")] in
  let s := set_streamSid (JStr "S1") new_session in
  sent_by (openAiWs_on_message sample_runtime (Some response)) s = []
  /\ state_after (openAiWs_on_message sample_runtime (Some response)) s = s.
Proof.
  intros response s.
  apply (refused_delta_is_dropped sample_runtime s response (JNum 7)).
  - reflexivity.
  - reflexivity.
  - exact I.
Defined.

Lemma markQueue_tokens_are_responsePart_witness :
  let s1 := state_after (handle sample_runtime
                           (FromTelephony OPEN (Some (start_frame "S1")))) new_session in
  let s2 := state_after (handle sample_runtime
                           (FromAi (Some (audio_delta_frame "QkJC")))) s1 in
  markQueue s2 = ["responsePart"]
  /\ Forall (eq "responsePart") (markQueue s2).
Proof.
  intros s1 s2. split; [reflexivity|].
  apply (markQueue_tokens_are_responsePart sample_runtime s2).
  exact (reachable_step sample_runtime _ _
           (reachable_step sample_runtime _ _ (reachable_new sample_runtime))).
Defined.

Lemma lastAssistantItem_null_or_truthy_witness :
  let response := JObj [("type", JStr "response.audio.delta");
                        ("delta", JStr "QkJC"); ("item_id", JStr "")] in
  let s1 := state_after (handle sample_runtime (FromAi (Some response))) new_session in
  lastAssistantItem s1 = JNull \/ truthy (lastAssistantItem s1) = true.
Proof.
  intros response s1.
  apply (lastAssistantItem_null_or_truthy sample_runtime s1).
  exact (reachable_step sample_runtime _ _ (reachable_new sample_runtime)).
Defined.


Lemma second_speech_started_is_noop_witness :
  let s := {| streamSid := JStr "S1";
              latestMediaTimestamp := JNum 740;
              lastAssistantItem := JStr "X";
              markQueue := ["responsePart"];
              responseStartTimestampTwilio := JNum 520 |} in
  let s1 := state_after (openAiWs_on_message sample_runtime (Some speech_started_frame)) s in
  sent_by (openAiWs_on_message sample_runtime (Some speech_started_frame)) s1 = []
  /\ state_after (openAiWs_on_message sample_runtime (Some speech_started_frame)) s1 = s1.
Proof.
  intros s.
  apply (second_speech_started_is_noop sample_runtime s
           speech_started_frame speech_started_frame); reflexivity.
Defined.

Lemma speech_started_after_start_is_noop_witness :
  let s := {| streamSid := JStr "S0";
              latestMediaTimestamp := JNum 740;
              lastAssistantItem := JStr "X";
              markQueue := ["responsePart"];
              responseStartTimestampTwilio := JNum 520 |} in
  let s1 := state_after (ws_on_message OPEN (Some (start_frame "S1"))) s in
  sent_by (openAiWs_on_message sample_runtime (Some speech_started_frame)) s1 = []
  /\ state_after (openAiWs_on_message sample_runtime (Some speech_started_frame)) s1 = s1.
Proof.
  intros s.
  apply (speech_started_after_start_is_noop sample_runtime OPEN s (start_frame "S1")
           (JObj [("streamSid", JStr "S1")]) speech_started_frame); reflexivity.
Defined.

Lemma delta_records_item_id_witness :
  let response := JObj [("type", JStr "response.audio.delta");
                        ("delta", JStr "QkJC"); ("item_id", JStr "item_7")] in
  lastAssistantItem
    (state_after (openAiWs_on_message sample_runtime (Some response)) new_session)
  = JStr "item_7".
Proof.
  intros response.
  apply (delta_records_item_id sample_runtime new_session response "QkJC"
           (JStr "item_7")).
  - reflexivity.
  - reflexivity.
  - discriminate.
  - reflexivity.
Defined.

Lemma streamSid_guards_mark_and_queue_witness :
  let f := FromAi (Some (audio_delta_frame "QkJC")) in
  count is_telephony_mark (sent_by (handle sample_runtime f) new_session) = 0%nat
  /\ (length (markQueue (state_after (handle sample_runtime f) new_session))
      <= length (markQueue new_session))%nat.
Proof.
  intros f.
  apply (streamSid_guards_mark_and_queue sample_runtime f new_session).
  reflexivity.
Defined.

Lemma first_delta_sets_anchor_witness :
  let s := set_latestMediaTimestamp (JNum 740) (set_streamSid (JStr "S1") new_session) in
  responseStartTimestampTwilio
    (state_after (openAiWs_on_message sample_runtime
                    (Some (audio_delta_frame "QkJC"))) s)
  = JNum 740.
Proof.
  intros s.
  apply (first_delta_sets_anchor sample_runtime s (audio_delta_frame "QkJC") "QkJC").
  - reflexivity.
  - reflexivity.
  - discriminate.
  - reflexivity.
Defined.

Lemma later_delta_keeps_truthy_anchor_witness :
  let s := {| streamSid := JStr "S1";
              latestMediaTimestamp := JNum 740;
              lastAssistantItem := JStr "X";
              markQueue := ["responsePart"];
              responseStartTimestampTwilio := JNum 520 |} in
  responseStartTimestampTwilio
    (state_after (openAiWs_on_message sample_runtime
                    (Some (audio_delta_frame "QkJC"))) s)
  = JNum 520.
Proof.
  intros s.
  apply (later_delta_keeps_truthy_anchor sample_runtime s (audio_delta_frame "QkJC")).
  - reflexivity.
  - reflexivity.
Defined.
